(** * btcd.go: the entry point of btcd

    A shallow embedding of [btcd.go] (package main): [foo], [main] and
    [btcdMain], with Go's [defer], [return], [os.Exit] and blocking channel
    operations made explicit, and the collaborators that live in other files
    (configuration, logging, signal handling, database, server, indexers)
    taken as an environment whose answers are arbitrary. *)

From Stdlib Require Import List String Ascii ZArith Bool Lia.
From ExtLib Require Import Structures.Monad.
Import ListNotations.
Import MonadNotation.

Local Open Scope string_scope.
Local Open Scope list_scope.
Local Open Scope monad_scope.

(** ** encoding/hex (Go standard library) *)

Module hex.

Inductive error :=
| InvalidByteError (c : ascii)
| ErrLength.

(** [reverseHexTable]: the value of a hexadecimal digit, [None] where the
    table holds 0xff. *)
Definition fromHexChar (c : ascii) : option Z :=
  let n := Z.of_nat (nat_of_ascii c) in
  if ((48 <=? n) && (n <=? 57))%Z then Some (n - 48)%Z
  else if ((97 <=? n) && (n <=? 102))%Z then Some (n - 97 + 10)%Z
  else if ((65 <=? n) && (n <=? 70))%Z then Some (n - 65 + 10)%Z
  else None.

(** [Decode]: two digits per byte; the bytes decoded before an error are
    returned with it; an odd trailing digit is [ErrLength] unless it is
    itself invalid. *)
Fixpoint Decode (src : list ascii) : list Z * option error :=
  match src with
  | [] => ([], None)
  | [p] =>
      match fromHexChar p with
      | None => ([], Some (InvalidByteError p))
      | Some _ => ([], Some ErrLength)
      end
  | p :: q :: rest =>
      match fromHexChar p with
      | None => ([], Some (InvalidByteError p))
      | Some a =>
          match fromHexChar q with
          | None => ([], Some (InvalidByteError q))
          | Some b =>
              let (out, err) := Decode rest in
              (Z.lor (Z.shiftl a 4) b :: out, err)
          end
      end
  end.

Definition DecodeString (s : string) : list Z * option error :=
  Decode (list_ascii_of_string s).

End hex.

(** ** Data *)

(** Go's [error] values that reach [btcdMain]; the names are those of the
    error taxonomy of the design. *)
Inductive error :=
| DependencyViolation
| StorageFailure
| OtherError (msg : string).

(** The fields of [config] that [btcd.go] reads. *)
Record config := {
  DropAddrIndex : bool;
  DropTxIndex : bool;
  Listeners : list string
}.

(** The block database as [btcd.go] sees it: a handle that is open or closed,
    and the two optional indexes it may hold. *)
Record database := {
  isOpen : bool;
  addrIndex : bool;
  txIndex : bool
}.

Record server := {
  started : bool;
  stopped : bool
}.

(** Mutable state: the package variable [cfg] (a nil pointer until
    [btcdMain] assigns it), the database, the server object once created, and
    the number of times the interrupt channel has been polled. *)
Record world := {
  cfg : option config;
  db : database;
  srv : option server;
  polls : nat
}.

Inductive logger := backendLog | btcdLog | srvrLog.
Inductive level := LvlInfo | LvlError.

(** What a run does that is visible from outside, in order. *)
Inductive event :=
| EvCall (f : string)
| EvLoadConfig (ok : bool)
| EvInterruptListener
| EvLog (l : logger) (lvl : level) (msg : string)
| EvLogFlush
| EvLoadBlockDB (ok : bool)
| EvDbClose
| EvDropAddrIndex (res : option error)
| EvDropTxIndex (res : option error)
| EvNewServer (ok : bool)
| EvServerStart
| EvServerStop
| EvServerWaitForShutdown
| EvChanSend (s : server)
| EvInterruptReceived
| EvPrintln (data : list Z) (err : option hex.error)
| EvPrintlnErr (err : error)
| EvFprintfStderr (msg : string)
| EvGOMAXPROCS (n : Z)
| EvSetGCPercent (p : Z)
| EvSetLimits (ok : bool)
| EvWinServiceMain
| EvExit (code : Z).

(** The collaborators defined outside [btcd.go], as the answers they give. *)
Record env := {
  (** [loadConfig()] *)
  loadConfig_result : config + error;
  (** [interruptRequested(interruptedChan)], by the number of earlier polls *)
  interrupted : nat -> bool;
  (** whether [interruptedChan] is ever closed *)
  shutdown_signalled : bool;
  (** [loadBlockDB()] *)
  loadBlockDB_result : option error;
  (** [indexers.DropAddrIndex(db)] and [indexers.DropTxIndex(db)] *)
  indexers_DropAddrIndex : database -> option error * database;
  indexers_DropTxIndex : database -> option error * database;
  (** [newServer(...)] *)
  newServer_result : option error;
  (** whether a value sent on [serverChan] is ever taken *)
  serverChan_taken : bool;
  (** [runtime.GOOS], [runtime.NumCPU()], [limits.SetLimits()] *)
  GOOS : string;
  NumCPU : Z;
  SetLimits_result : option error;
  (** the variable [winServiceMain]: nil ([None]) unless the Windows build set
      it, otherwise what the call returns *)
  winServiceMain : option (bool * option error)
}.

(** ** Statements, functions and [defer] *)

(** How a function call ends: it returns, never returns, ends the process
    through [os.Exit], or panics. *)
Inductive outcome (R : Type) :=
| Returned (r : R)
| Hangs
| Exits (code : Z)
| Panics.
Arguments Returned {R} r.
Arguments Hangs {R}.
Arguments Exits {R} code.
Arguments Panics {R}.

(** What a call leaves behind: how it ended, the state, and the events it
    emitted. *)
Definition func_result (R : Type) : Type := outcome R * world * list event.

(** The frame of a running function: the state, the deferred calls (last
    deferred first) and the events emitted so far. *)
Record frame := {
  wld : world;
  deferred : list (world -> func_result unit);
  emitted : list event
}.

(** How a statement ends: it falls through, executes [return], blocks for
    ever, calls [os.Exit], or panics. *)
Inductive flow (R A : Type) :=
| Next (a : A)
| Return (r : R)
| Block
| Exit (code : Z)
| Panic.
Arguments Next {R A} a.
Arguments Return {R A} r.
Arguments Block {R A}.
Arguments Exit {R A} code.
Arguments Panic {R A}.

Definition stmt (R A : Type) : Type := frame -> flow R A * frame.

#[global] Instance Monad_stmt (R : Type) : Monad (stmt R) := {|
  ret := fun A (a : A) fr => (Next a, fr);
  bind := fun A B (m : stmt R A) (k : A -> stmt R B) fr =>
    match m fr with
    | (Next a, fr') => k a fr'
    | (Return r, fr') => (Return r, fr')
    | (Block, fr') => (Block, fr')
    | (Exit c, fr') => (Exit c, fr')
    | (Panic, fr') => (Panic, fr')
    end
|}.

(** Deferred calls run last-deferred-first; one that does not return stops
    the sequence. *)
Fixpoint run_deferred (ds : list (world -> func_result unit)) (w : world)
  : func_result unit :=
  match ds with
  | [] => (Returned tt, w, [])
  | d :: ds' =>
      match d w with
      | (Returned _, w1, e1) =>
          let '(o, w2, e2) := run_deferred ds' w1 in (o, w2, e1 ++ e2)
      | other => other
      end
  end.

(** The end of a function whose body is over: the deferred calls run, then
    the function ends as [o] says. *)
Definition unwind {R : Type} (o : outcome R) (fr : frame) : func_result R :=
  match run_deferred (deferred fr) (wld fr) with
  | (Returned _, w', es) => (o, w', emitted fr ++ es)
  | (Hangs, w', es) => (Hangs, w', emitted fr ++ es)
  | (Exits c, w', es) => (Exits c, w', emitted fr ++ es)
  | (Panics, w', es) => (Panics, w', emitted fr ++ es)
  end.

(** A function body run to its end.  The deferred calls run when the body
    returns or panics, and do not run when it calls [os.Exit] or never
    returns. *)
Definition func {R : Type} (body : stmt R R) (w : world) : func_result R :=
  match body {| wld := w; deferred := []; emitted := [] |} with
  | (Next r, fr) | (Return r, fr) => unwind (Returned r) fr
  | (Block, fr) => (Hangs, wld fr, emitted fr)
  | (Exit c, fr) => (Exits c, wld fr, emitted fr)
  | (Panic, fr) => unwind Panics fr
  end.

Section Statements.
Context {R : Type}.

Definition emit (e : event) : stmt R unit :=
  fun fr => (Next tt, {| wld := wld fr; deferred := deferred fr;
                         emitted := emitted fr ++ [e] |}).

Definition get_world : stmt R world :=
  fun fr => (Next (wld fr), fr).

Definition put_world (w : world) : stmt R unit :=
  fun fr => (Next tt, {| wld := w; deferred := deferred fr;
                         emitted := emitted fr |}).

Definition defer (d : world -> func_result unit) : stmt R unit :=
  fun fr => (Next tt, {| wld := wld fr; deferred := d :: deferred fr;
                         emitted := emitted fr |}).

Definition return_ {A : Type} (r : R) : stmt R A :=
  fun fr => (Return r, fr).

Definition block {A : Type} : stmt R A :=
  fun fr => (Block, fr).

Definition panic {A : Type} : stmt R A :=
  fun fr => (Panic, fr).

(** [os.Exit(code)] *)
Definition os_Exit {A : Type} (code : Z) : stmt R A :=
  fun fr => (Exit code, {| wld := wld fr; deferred := deferred fr;
                           emitted := emitted fr ++ [EvExit code] |}).

(** A call of a function of this file from another one. *)
Definition call {R' : Type} (name : string) (f : world -> func_result R')
  : stmt R R' :=
  fun fr =>
    let '(o, w', es) := f (wld fr) in
    let fr' := {| wld := w'; deferred := deferred fr;
                  emitted := emitted fr ++ EvCall name :: es |} in
    match o with
    | Returned r => (Next r, fr')
    | Hangs => (Block, fr')
    | Exits c => (Exit c, fr')
    | Panics => (Panic, fr')
    end.

(** [if c { body }] *)
Definition when (c : bool) (body : stmt R unit) : stmt R unit :=
  if c then body else ret tt.

End Statements.

(** ** The collaborators, as [btcd.go] calls them *)

(** Channels carry no data of interest here: [interruptedChan] is only
    polled and awaited, [serverChan] only sent on. *)
Definition chan : Type := unit.

Section Program.
Variable E : env.

Section Collaborators.
Context {R : Type}.

Definition update (f : world -> world) : stmt R unit :=
  w <- get_world ;; put_world (f w).

Definition loadConfig : stmt R (config + error) :=
  match loadConfig_result E with
  | inl tcfg => emit (EvLoadConfig true) ;; ret (inl tcfg)
  | inr err => emit (EvLoadConfig false) ;; ret (inr err)
  end.

(** [cfg = tcfg] *)
Definition set_cfg (tcfg : config) : stmt R unit :=
  update (fun w => {| cfg := Some tcfg; db := db w; srv := srv w;
                      polls := polls w |}).

(** A read through the pointer [cfg]. *)
Definition read_cfg : stmt R config :=
  w <- get_world ;;
  match cfg w with
  | Some c => ret c
  | None => panic
  end.

Definition Log (l : logger) (lvl : level) (msg : string) : stmt R unit :=
  emit (EvLog l lvl msg).

Definition backendLog_Flush : stmt R unit :=
  emit EvLogFlush.

Definition interruptListener : stmt R chan :=
  emit EvInterruptListener ;; ret tt.

(** The non-blocking poll of the interrupt channel. *)
Definition interruptRequested (interrupted_chan : chan) : stmt R bool :=
  w <- get_world ;;
  put_world {| cfg := cfg w; db := db w; srv := srv w;
               polls := S (polls w) |} ;;
  ret (interrupted E (polls w)).

(** [<-interruptedChan] *)
Definition await_interrupt (interrupted_chan : chan) : stmt R unit :=
  if shutdown_signalled E then emit EvInterruptReceived else block.

Definition set_db (d : database) (w : world) : world :=
  {| cfg := cfg w; db := d; srv := srv w; polls := polls w |}.

Definition set_srv (s : option server) (w : world) : world :=
  {| cfg := cfg w; db := db w; srv := s; polls := polls w |}.

Definition loadBlockDB : stmt R (unit + error) :=
  match loadBlockDB_result E with
  | Some err => emit (EvLoadBlockDB false) ;; ret (inr err)
  | None =>
      update (fun w => set_db {| isOpen := true; addrIndex := addrIndex (db w);
                                 txIndex := txIndex (db w) |} w) ;;
      emit (EvLoadBlockDB true) ;;
      ret (inl tt)
  end.

Definition db_Close (d : unit) : stmt R unit :=
  update (fun w => set_db {| isOpen := false; addrIndex := addrIndex (db w);
                             txIndex := txIndex (db w) |} w) ;;
  emit EvDbClose.

Definition indexers_DropAddrIndex_call (d : unit) : stmt R (option error) :=
  w <- get_world ;;
  let (err, d') := indexers_DropAddrIndex E (db w) in
  put_world (set_db d' w) ;;
  emit (EvDropAddrIndex err) ;;
  ret err.

Definition indexers_DropTxIndex_call (d : unit) : stmt R (option error) :=
  w <- get_world ;;
  let (err, d') := indexers_DropTxIndex E (db w) in
  put_world (set_db d' w) ;;
  emit (EvDropTxIndex err) ;;
  ret err.

Definition newServer (listeners : list string) (d : unit)
  : stmt R (unit + error) :=
  match newServer_result E with
  | Some err => emit (EvNewServer false) ;; ret (inr err)
  | None =>
      update (set_srv (Some {| started := false; stopped := false |})) ;;
      emit (EvNewServer true) ;;
      ret (inl tt)
  end.

(** A method call on the server created by [newServer]. *)
Definition with_server {A : Type} (k : server -> stmt R A) : stmt R A :=
  w <- get_world ;;
  match srv w with
  | Some s => k s
  | None => panic
  end.

Definition server_Start (sv : unit) : stmt R unit :=
  with_server (fun s =>
    update (set_srv (Some {| started := true; stopped := stopped s |})) ;;
    emit EvServerStart).

Definition server_Stop (sv : unit) : stmt R unit :=
  with_server (fun s =>
    update (set_srv (Some {| started := started s; stopped := true |})) ;;
    emit EvServerStop).

Definition server_WaitForShutdown (sv : unit) : stmt R unit :=
  emit EvServerWaitForShutdown.

(** [serverChan <- server]: the receiver gets the server as it is then. *)
Definition chan_send (server_chan : chan) (sv : unit) : stmt R unit :=
  if serverChan_taken E
  then with_server (fun s => emit (EvChanSend s))
  else block.

End Collaborators.

(** ** [btcdMain] *)

Definition btcdMain (serverChan : option chan)
  : world -> func_result (option error) :=
  func (
    (* Load configuration and parse command line. *)
    r <- loadConfig ;;
    match r with
    | inr err => return_ (Some err)
    | inl tcfg =>
    set_cfg tcfg ;;
    defer (func backendLog_Flush) ;;

    interruptedChan <- interruptListener ;;
    defer (func (Log btcdLog LvlInfo "Shutdown complete")) ;;

    (* Show version at startup. *)
    Log btcdLog LvlInfo "Version %s" ;;

    (* Return now if an interrupt signal was triggered. *)
    i <- interruptRequested interruptedChan ;;
    when i (return_ None) ;;

    (* Load the block database. *)
    r <- loadBlockDB ;;
    match r with
    | inr err =>
        Log btcdLog LvlError "%v" ;;
        return_ (Some err)
    | inl db =>
    defer (func (
      Log btcdLog LvlInfo "Gracefully shutting down the database..." ;;
      db_Close db)) ;;

    (* Return now if an interrupt signal was triggered. *)
    i <- interruptRequested interruptedChan ;;
    when i (return_ None) ;;

    (* Drop indexes and exit if requested. *)
    c <- read_cfg ;;
    when (DropAddrIndex c) (
      err <- indexers_DropAddrIndex_call db ;;
      match err with
      | Some e =>
          Log btcdLog LvlError "%v" ;;
          return_ (Some e)
      | None => return_ None
      end) ;;
    c <- read_cfg ;;
    when (DropTxIndex c) (
      err <- indexers_DropTxIndex_call db ;;
      match err with
      | Some e =>
          Log btcdLog LvlError "%v" ;;
          return_ (Some e)
      | None => return_ None
      end) ;;

    (* Create server and start it. *)
    c <- read_cfg ;;
    r <- newServer (Listeners c) db ;;
    match r with
    | inr err =>
        Log btcdLog LvlError "Unable to start server on %v: %v" ;;
        return_ (Some err)
    | inl server =>
    defer (func (
      Log btcdLog LvlInfo "Gracefully shutting down the server..." ;;
      server_Stop server ;;
      server_WaitForShutdown server ;;
      Log srvrLog LvlInfo "Server shutdown complete")) ;;
    server_Start server ;;
    match serverChan with
    | Some ch => chan_send ch server
    | None => ret tt
    end ;;

    (* Wait until the interrupt signal is received. *)
    await_interrupt interruptedChan ;;
    return_ None
    end end end
  ).

(** ** [foo] and [main] *)

Definition fmt_Println {R} (data : list Z) (err : option hex.error)
  : stmt R unit :=
  emit (EvPrintln data err).

Definition foo : world -> func_result unit :=
  func (
    let h := "76a914da90c671eb03bfddf1d62dd1bdf520f060cf41c088ac" in
    let '(data, err) := hex.DecodeString h in
    fmt_Println data err ;;
    os_Exit 1
  ).

(** [winServiceMain()]: a call through a function variable, which panics
    when the variable is nil. *)
Definition winServiceMain_call : stmt unit (bool * option error) :=
  match winServiceMain E with
  | Some r => emit EvWinServiceMain ;; ret r
  | None => panic
  end.

Definition limits_SetLimits : stmt unit (option error) :=
  match SetLimits_result E with
  | Some err => emit (EvSetLimits false) ;; ret (Some err)
  | None => emit (EvSetLimits true) ;; ret None
  end.

(** The statements of [main] that follow the call of [foo]. *)
Definition main_after_foo : stmt unit unit :=
  (* Use all processor cores. *)
  emit (EvGOMAXPROCS (NumCPU E)) ;;
  emit (EvSetGCPercent 10) ;;

  (* Up some limits. *)
  err <- limits_SetLimits ;;
  match err with
  | Some _ =>
      emit (EvFprintfStderr "failed to set limits: %v\n") ;;
      os_Exit 1
  | None => ret tt
  end ;;

  (* Call serviceMain on Windows to handle running as a service. *)
  when (GOOS E =? "windows")%string (
    r <- winServiceMain_call ;;
    let '(isService, err) := r in
    match err with
    | Some e =>
        emit (EvPrintlnErr e) ;;
        os_Exit 1
    | None => ret tt
    end ;;
    when isService (os_Exit 0)) ;;

  (* Work around defer not working after os.Exit() *)
  err <- call "btcdMain" (btcdMain None) ;;
  match err with
  | Some _ => os_Exit 1
  | None => ret tt
  end.

Definition main : world -> func_result unit :=
  func (
    call "foo" foo ;;
    main_after_foo
  ).

End Program.

(** ** The Index Manager *)

Module IndexManager.

(** Modelled from the spec: [dropAddressIndex] of the Index Manager, which
    [btcdMain] reaches as [indexers.DropAddrIndex]; package
    [blockchain/indexers] is not among the sources.  Dropping the address
    index always succeeds and leaves the transaction index alone. *)
Definition dropAddressIndex (d : database) : option error * database :=
  (None, {| isOpen := isOpen d; addrIndex := false; txIndex := txIndex d |}).

(** [indexers.DropTxIndex], as [btcdMain] documents it where it calls it
    (btcd.go, lines 73-74): "dropping the tx index also drops the address
    index since it relies on it".  Package [blockchain/indexers] is not among
    the sources; the drop is taken to succeed, as the drop of the address
    index is.  The design document instead has the operation refused with
    [DependencyViolation] while the address index is present. *)
Definition dropTransactionIndex (d : database) : option error * database :=
  (None, {| isOpen := isOpen d; addrIndex := false; txIndex := false |}).

(** An environment whose indexers are these two operations. *)
Definition installed (E : env) : Prop :=
  indexers_DropAddrIndex E = dropAddressIndex /\
  indexers_DropTxIndex E = dropTransactionIndex.

End IndexManager.

(** ** Observations on a run *)

Definition outcome_of {R} (r : func_result R) : outcome R := fst (fst r).
Definition world_of {R} (r : func_result R) : world := snd (fst r).
Definition events_of {R} (r : func_result R) : list event := snd r.

(** The literal of [foo], decoded. *)
Definition foo_data : list Z :=
  [118; 169; 20; 218; 144; 198; 113; 235; 3; 191; 221; 241; 214; 45; 209;
   189; 245; 32; 240; 96; 207; 65; 192; 136; 172]%Z.

(** The work of normal startup: [btcdMain] entered, configuration loaded,
    database opened, an index dropped, the server created or started. *)
Definition is_startup_work (e : event) : bool :=
  match e with
  | EvCall f => (f =? "btcdMain")%string
  | EvLoadConfig _ | EvLoadBlockDB _ | EvDropAddrIndex _ | EvDropTxIndex _
  | EvNewServer _ | EvServerStart => true
  | _ => false
  end.

(** [newServer] called, or anything done to a server. *)
Definition is_server_event (e : event) : bool :=
  match e with
  | EvNewServer _ | EvServerStart | EvServerStop | EvServerWaitForShutdown
  | EvChanSend _ => true
  | _ => false
  end.

Definition is_db_load (e : event) : bool :=
  match e with
  | EvLoadBlockDB _ => true
  | _ => false
  end.

(** The database handle opened or closed. *)
Definition is_db_handle_event (e : event) : bool :=
  match e with
  | EvLoadBlockDB true | EvDbClose => true
  | _ => false
  end.

Definition is_index_drop (e : event) : bool :=
  match e with
  | EvDropAddrIndex _ | EvDropTxIndex _ => true
  | _ => false
  end.


Definition none_of (p : event -> bool) (evs : list event) : Prop :=
  filter p evs = [].

(** The resources [btcdMain] holds: the log backend set up by [loadConfig],
    the database handle and the server. *)
Inductive resource := TheLog | TheDatabase | TheServer.

Definition acquires (e : event) : list resource :=
  match e with
  | EvLoadConfig true => [TheLog]
  | EvLoadBlockDB true => [TheDatabase]
  | EvNewServer true => [TheServer]
  | _ => []
  end.

Definition releases (e : event) : list resource :=
  match e with
  | EvLogFlush => [TheLog]
  | EvDbClose => [TheDatabase]
  | EvServerWaitForShutdown => [TheServer]
  | _ => []
  end.

Definition acquired (evs : list event) : list resource :=
  flat_map acquires evs.

Definition released (evs : list event) : list resource :=
  flat_map releases evs.

(** The steps of the cleanup, in the order they happen. *)
Definition is_cleanup_step (e : event) : bool :=
  match e with
  | EvServerStop | EvServerWaitForShutdown | EvDbClose | EvLogFlush => true
  | _ => false
  end.

(** A run that gets as far as the index-drop handling of [btcdMain]: the
    configuration [c] loads, no interrupt is pending at either poll, and the
    database loads. *)
Definition reaches_drop_handling (E : env) (w : world) (c : config) : Prop :=
  loadConfig_result E = inl c /\
  interrupted E (polls w) = false /\
  loadBlockDB_result E = None /\
  interrupted E (S (polls w)) = false.

(** ** Sample runs *)

Definition serve_cfg : config :=
  {| DropAddrIndex := false; DropTxIndex := false;
     Listeners := ["127.0.0.1:8333"] |}.


Definition drop_tx_cfg : config :=
  {| DropAddrIndex := false; DropTxIndex := true; Listeners := [] |}.

Definition drop_both_cfg : config :=
  {| DropAddrIndex := true; DropTxIndex := true; Listeners := [] |}.

(** An environment on Linux with the Index Manager installed, where the
    configuration [c] loads, the server can be created, a sent server is
    taken and the shutdown signal arrives in the end; the arguments say when
    an interrupt is pending and whether the database loads. *)
Definition sample_env (c : config) (intr : nat -> bool) (lb : option error)
  : env :=
  {| loadConfig_result := inl c;
     interrupted := intr;
     shutdown_signalled := true;
     loadBlockDB_result := lb;
     indexers_DropAddrIndex := IndexManager.dropAddressIndex;
     indexers_DropTxIndex := IndexManager.dropTransactionIndex;
     newServer_result := None;
     serverChan_taken := true;
     GOOS := "linux";
     NumCPU := 4;
     SetLimits_result := None;
     winServiceMain := None |}.

Definition never : nat -> bool := fun _ => false.

Definition plain_env (c : config) : env := sample_env c never None.

(** The same on Windows, started by the service control manager:
    [winServiceMain] reports that the process ran as a service. *)
Definition windows_service_env : env :=
  {| loadConfig_result := inl serve_cfg;
     interrupted := never;
     shutdown_signalled := true;
     loadBlockDB_result := None;
     indexers_DropAddrIndex := IndexManager.dropAddressIndex;
     indexers_DropTxIndex := IndexManager.dropTransactionIndex;
     newServer_result := None;
     serverChan_taken := true;
     GOOS := "windows";
     NumCPU := 4;
     SetLimits_result := None;
     winServiceMain := Some (true, None) |}.

(** The same where [loadBlockDB] fails. *)
Definition db_failure_env : env :=
  sample_env serve_cfg never (Some StorageFailure).

(** The same where an interrupt is pending at poll [k] and no other. *)
Definition interrupted_env (k : nat) : env :=
  sample_env serve_cfg (Nat.eqb k) None.

(** Before the first run: [cfg] is nil, the database is closed and holds
    both indexes, there is no server. *)
Definition fresh_world : world :=
  {| cfg := None;
     db := {| isOpen := false; addrIndex := true; txIndex := true |};
     srv := None;
     polls := 0 |}.



Definition drop_both_run : func_result (option error) :=
  btcdMain (plain_env drop_both_cfg) None fresh_world.

Definition db_failure_run : func_result (option error) :=
  btcdMain db_failure_env None fresh_world.

Definition interrupted_run (k : nat) : func_result (option error) :=
  btcdMain (interrupted_env k) None fresh_world.


(** A full run on behalf of a caller that waits for the server. *)
Definition serve_run : func_result (option error) :=
  btcdMain (plain_env serve_cfg) (Some tt) fresh_world.

(** [main] gets as far as its call of [btcdMain]: the limits are set, and
    the process is not a Windows service. *)
Definition reaches_btcdMain (E : env) : Prop :=
  SetLimits_result E = None /\
  ((GOOS E =? "windows") = false \/ winServiceMain E = Some (false, None)).

(** ** The exit paths of [btcdMain] *)

Definition opened (d : database) : database :=
  {| isOpen := true; addrIndex := addrIndex d; txIndex := txIndex d |}.

Definition closed (d : database) : database :=
  {| isOpen := false; addrIndex := addrIndex d; txIndex := txIndex d |}.

Definition startup_events : list event :=
  [EvLoadConfig true; EvInterruptListener; EvLog btcdLog LvlInfo "Version %s"].

Definition log_cleanup : list event :=
  [EvLog btcdLog LvlInfo "Shutdown complete"; EvLogFlush].

Definition db_cleanup : list event :=
  [EvLog btcdLog LvlInfo "Gracefully shutting down the database...";
   EvDbClose].

Definition server_cleanup : list event :=
  [EvLog btcdLog LvlInfo "Gracefully shutting down the server...";
   EvServerStop; EvServerWaitForShutdown;
   EvLog srvrLog LvlInfo "Server shutdown complete"].

Definition error_log (res : option error) : list event :=
  match res with
  | Some _ => [EvLog btcdLog LvlError "%v"]
  | None => []
  end.

Definition running : server := {| started := true; stopped := false |}.

Definition send_events (sc : option chan) : list event :=
  match sc with
  | Some _ => [EvChanSend running]
  | None => []
  end.

(** Every way a call of [btcdMain] can go, with what it leaves behind; the
    constructors follow the [return] statements of the source from top to
    bottom, then the two places where it can wait for ever. *)
Inductive btcdMain_path (E : env) (sc : option chan) (w : world)
  : func_result (option error) -> Prop :=
| path_config_error err :
    loadConfig_result E = inr err ->
    btcdMain_path E sc w (Returned (Some err), w, [EvLoadConfig false])
| path_interrupted_at_start c :
    loadConfig_result E = inl c ->
    interrupted E (polls w) = true ->
    btcdMain_path E sc w
      (Returned None,
       {| cfg := Some c; db := db w; srv := srv w; polls := S (polls w) |},
       startup_events ++ log_cleanup)
| path_db_error c err :
    loadConfig_result E = inl c ->
    interrupted E (polls w) = false ->
    loadBlockDB_result E = Some err ->
    btcdMain_path E sc w
      (Returned (Some err),
       {| cfg := Some c; db := db w; srv := srv w; polls := S (polls w) |},
       startup_events ++ [EvLoadBlockDB false; EvLog btcdLog LvlError "%v"]
         ++ log_cleanup)
| path_interrupted_after_db c :
    loadConfig_result E = inl c ->
    interrupted E (polls w) = false ->
    loadBlockDB_result E = None ->
    interrupted E (S (polls w)) = true ->
    btcdMain_path E sc w
      (Returned None,
       {| cfg := Some c; db := closed (db w); srv := srv w;
          polls := S (S (polls w)) |},
       startup_events ++ [EvLoadBlockDB true] ++ db_cleanup ++ log_cleanup)
| path_drop_addr_index c res d' :
    reaches_drop_handling E w c ->
    DropAddrIndex c = true ->
    indexers_DropAddrIndex E (opened (db w)) = (res, d') ->
    btcdMain_path E sc w
      (Returned res,
       {| cfg := Some c; db := closed d'; srv := srv w;
          polls := S (S (polls w)) |},
       startup_events ++ [EvLoadBlockDB true; EvDropAddrIndex res]
         ++ error_log res ++ db_cleanup ++ log_cleanup)
| path_drop_tx_index c res d' :
    reaches_drop_handling E w c ->
    DropAddrIndex c = false ->
    DropTxIndex c = true ->
    indexers_DropTxIndex E (opened (db w)) = (res, d') ->
    btcdMain_path E sc w
      (Returned res,
       {| cfg := Some c; db := closed d'; srv := srv w;
          polls := S (S (polls w)) |},
       startup_events ++ [EvLoadBlockDB true; EvDropTxIndex res]
         ++ error_log res ++ db_cleanup ++ log_cleanup)
| path_server_error c err :
    reaches_drop_handling E w c ->
    DropAddrIndex c = false ->
    DropTxIndex c = false ->
    newServer_result E = Some err ->
    btcdMain_path E sc w
      (Returned (Some err),
       {| cfg := Some c; db := closed (db w); srv := srv w;
          polls := S (S (polls w)) |},
       startup_events
         ++ [EvLoadBlockDB true; EvNewServer false;
             EvLog btcdLog LvlError "Unable to start server on %v: %v"]
         ++ db_cleanup ++ log_cleanup)
| path_send_blocks c ch :
    reaches_drop_handling E w c ->
    DropAddrIndex c = false ->
    DropTxIndex c = false ->
    newServer_result E = None ->
    sc = Some ch ->
    serverChan_taken E = false ->
    btcdMain_path E sc w
      (Hangs,
       {| cfg := Some c; db := opened (db w); srv := Some running;
          polls := S (S (polls w)) |},
       startup_events ++ [EvLoadBlockDB true; EvNewServer true; EvServerStart])
| path_waits_for_ever c :
    reaches_drop_handling E w c ->
    DropAddrIndex c = false ->
    DropTxIndex c = false ->
    newServer_result E = None ->
    sc = None \/ serverChan_taken E = true ->
    shutdown_signalled E = false ->
    btcdMain_path E sc w
      (Hangs,
       {| cfg := Some c; db := opened (db w); srv := Some running;
          polls := S (S (polls w)) |},
       startup_events ++ [EvLoadBlockDB true; EvNewServer true; EvServerStart]
         ++ send_events sc)
| path_served c :
    reaches_drop_handling E w c ->
    DropAddrIndex c = false ->
    DropTxIndex c = false ->
    newServer_result E = None ->
    sc = None \/ serverChan_taken E = true ->
    shutdown_signalled E = true ->
    btcdMain_path E sc w
      (Returned None,
       {| cfg := Some c; db := closed (db w);
          srv := Some {| started := true; stopped := true |};
          polls := S (S (polls w)) |},
       startup_events ++ [EvLoadBlockDB true; EvNewServer true; EvServerStart]
         ++ send_events sc ++ [EvInterruptReceived]
         ++ server_cleanup ++ db_cleanup ++ log_cleanup).

(** What the cleanup of a resource emits. *)
Definition release_events (r : resource) : list event :=
  match r with
  | TheLog => log_cleanup
  | TheDatabase => db_cleanup
  | TheServer => server_cleanup
  end.

(** Checks that every send of the server comes after [server.Start()] and
    carries a started server; [seen] says whether the start has happened. *)
Fixpoint sends_follow_start (seen : bool) (evs : list event) : bool :=
  match evs with
  | [] => true
  | EvServerStart :: rest => sends_follow_start true rest
  | EvChanSend s :: rest =>
      seen && started s && sends_follow_start seen rest
  | _ :: rest => sends_follow_start seen rest
  end.

(** ** More sample environments and observations *)

(** [loadConfig] fails. *)
Definition config_failure_env : env :=
  {| loadConfig_result := inr (OtherError "bad flag");
     interrupted := never;
     shutdown_signalled := true;
     loadBlockDB_result := None;
     indexers_DropAddrIndex := IndexManager.dropAddressIndex;
     indexers_DropTxIndex := IndexManager.dropTransactionIndex;
     newServer_result := None;
     serverChan_taken := true;
     GOOS := "linux";
     NumCPU := 4;
     SetLimits_result := None;
     winServiceMain := None |}.

(** [newServer] fails. *)
Definition server_failure_env : env :=
  {| loadConfig_result := inl serve_cfg;
     interrupted := never;
     shutdown_signalled := true;
     loadBlockDB_result := None;
     indexers_DropAddrIndex := IndexManager.dropAddressIndex;
     indexers_DropTxIndex := IndexManager.dropTransactionIndex;
     newServer_result := Some (OtherError "listen");
     serverChan_taken := true;
     GOOS := "linux";
     NumCPU := 4;
     SetLimits_result := None;
     winServiceMain := None |}.

(** [limits.SetLimits] fails. *)
Definition limits_failure_env : env :=
  {| loadConfig_result := inl serve_cfg;
     interrupted := never;
     shutdown_signalled := true;
     loadBlockDB_result := None;
     indexers_DropAddrIndex := IndexManager.dropAddressIndex;
     indexers_DropTxIndex := IndexManager.dropTransactionIndex;
     newServer_result := None;
     serverChan_taken := true;
     GOOS := "linux";
     NumCPU := 4;
     SetLimits_result := Some (OtherError "rlimit");
     winServiceMain := None |}.

(** A character that [reverseHexTable] maps to a digit. *)
Definition is_hex_digit (c : ascii) : bool :=
  match hex.fromHexChar c with
  | Some _ => true
  | None => false
  end.


(** What [main] emits after [foo] up to its call of [btcdMain]. *)
Definition gate_events (E : env) : list event :=
  [EvGOMAXPROCS (NumCPU E); EvSetGCPercent 10; EvSetLimits true]
  ++ (if (GOOS E =? "windows") then [EvWinServiceMain] else []).

(** ** Proof support *)

Create HintDb go discriminated.
#[local] Hint Unfold btcdMain main main_after_foo func unwind
  loadConfig set_cfg read_cfg Log backendLog_Flush interruptListener
  interruptRequested await_interrupt loadBlockDB db_Close
  indexers_DropAddrIndex_call indexers_DropTxIndex_call newServer with_server
  server_Start server_Stop server_WaitForShutdown chan_send
  winServiceMain_call limits_SetLimits update when call
  emit get_world put_world defer return_ block panic os_Exit set_db set_srv
  : go.

Ltac split_env E :=
  let lc := fresh "lc" in let intr := fresh "intr" in
  let sig := fresh "sig" in let lb := fresh "lb" in
  let da := fresh "da" in let dt := fresh "dt" in
  let ns := fresh "ns" in let tk := fresh "tk" in
  let goos := fresh "goos" in let ncpu := fresh "ncpu" in
  let sl := fresh "sl" in let wsm := fresh "wsm" in
  destruct E as [lc intr sig lb da dt ns tk goos ncpu sl wsm].

(** Discharges a side condition of a sample run by evaluating it. *)
Ltac by_eval := vm_compute; repeat split; reflexivity.

(** ** Facts about every run of [btcdMain] *)

(** Every call of [btcdMain] takes one of the listed paths. *)
Lemma btcdMain_paths (E : env) (sc : option chan) (w : world) :
  btcdMain_path E sc w (btcdMain E sc w).
Proof.
  split_env E. autounfold with go; cbn.
  destruct lc as [c | err]; cbn;
    [ | now apply path_config_error ].
  destruct (intr (polls w)) eqn:Hi1; cbn;
    [ now apply path_interrupted_at_start | ].
  destruct lb as [err | ]; cbn;
    [ now apply path_db_error | ].
  destruct (intr (S (polls w))) eqn:Hi2; cbn;
    [ now apply path_interrupted_after_db | ].
  match goal with
  | |- btcdMain_path ?E0 _ _ _ =>
      assert (Hreach : reaches_drop_handling E0 w c)
        by (repeat split; assumption)
  end.
  destruct (DropAddrIndex c) eqn:Ha; cbn.
  { destruct (da _) as [[e | ] d'] eqn:Hda; cbn.
    - now apply (path_drop_addr_index _ sc w c (Some e) d').
    - now apply (path_drop_addr_index _ sc w c None d'). }
  destruct (DropTxIndex c) eqn:Ht; cbn.
  { destruct (dt _) as [[e | ] d'] eqn:Hdt; cbn.
    - now apply (path_drop_tx_index _ sc w c (Some e) d').
    - now apply (path_drop_tx_index _ sc w c None d'). }
  destruct ns as [err | ]; cbn;
    [ now apply (path_server_error _ sc w c err) | ].
  destruct sc as [ch | ]; cbn.
  - destruct tk; cbn.
    + destruct sig; cbn.
      * apply (path_served _ (Some ch) w c); auto.
      * apply (path_waits_for_ever _ (Some ch) w c); auto.
    + now apply (path_send_blocks _ (Some ch) w c ch).
  - destruct sig; cbn.
    + apply (path_served _ None w c); auto.
    + apply (path_waits_for_ever _ None w c); auto.
Qed.

Ltac by_paths Hrun :=
  match type of Hrun with
  | btcdMain ?E ?sc ?w = _ =>
      let P := fresh "P" in
      pose proof (btcdMain_paths E sc w) as P;
      rewrite Hrun in P; inversion P; subst; clear P
  end.

Ltac unreach :=
  unfold reaches_drop_handling in *;
  repeat match goal with
         | H : _ /\ _ |- _ => destruct H
         end;
  congruence.

(** The configuration of the path taken is the one that was loaded. *)
Ltac same_config c :=
  match goal with
  | H : reaches_drop_handling _ _ ?c' |- _ =>
      tryif constr_eq c' c then fail
      else (assert (c' = c) by unreach; subst c')
  end.

(** [btcdMain] neither panics nor ends the process: it returns or waits for
    ever, and it returns whenever the shutdown signal arrives and a sent
    server is taken. *)
Lemma btcdMain_returns_or_hangs (E : env) (sc : option chan) (w : world) :
  ((exists r, outcome_of (btcdMain E sc w) = Returned r) \/
   outcome_of (btcdMain E sc w) = Hangs)
  /\ (shutdown_signalled E = true -> serverChan_taken E = true ->
      exists r, outcome_of (btcdMain E sc w) = Returned r).
Proof.
  destruct (btcdMain_paths E sc w); cbn;
    (split; [ | intros Hsig Htk ]); eauto; congruence.
Qed.


(** Without a server event the server object is the one [btcdMain] found. *)
Lemma no_server_event_no_server_change
  (E : env) (sc : option chan) (w : world) o w' evs :
  btcdMain E sc w = (o, w', evs) ->
  none_of is_server_event evs ->
  srv w' = srv w.
Proof.
  intros Hrun Hnone. by_paths Hrun; try reflexivity.
  all: unfold none_of in Hnone; cbn in Hnone; discriminate.
Qed.

(** A run that returns after it opened the database closed it again. *)
Lemma db_closed_on_return
  (E : env) (sc : option chan) (w : world) r w' evs :
  btcdMain E sc w = (Returned r, w', evs) ->
  In (EvLoadBlockDB true) evs ->
  filter is_db_handle_event evs = [EvLoadBlockDB true; EvDbClose]
  /\ isOpen (db w') = false.
Proof.
  intros Hrun Hin. by_paths Hrun.
  all: try (split; reflexivity).
  all: try (destruct r; split; reflexivity).
  all: try (destruct sc; split; reflexivity).
  all: cbn in Hin; intuition discriminate.
Qed.

(** ** [main] *)

Lemma foo_decodes :
  hex.DecodeString "76a914da90c671eb03bfddf1d62dd1bdf520f060cf41c088ac"
  = (foo_data, None).
Proof. reflexivity. Qed.

Lemma foo_exits (w : world) :
  foo w = (Exits 1, w, [EvPrintln foo_data None; EvExit 1]).
Proof. reflexivity. Qed.

(** The statements of [main] after [foo], once they get to [btcdMain], end
    as [btcdMain] does, except that an error returned becomes exit status 1. *)
Lemma main_after_foo_follows_btcdMain (E : env) (w : world) o w' evs :
  reaches_btcdMain E ->
  btcdMain E None w = (o, w', evs) ->
  outcome_of (func (main_after_foo E) w)
  = match o with
    | Returned None => Returned tt
    | Returned (Some _) => Exits 1
    | Hangs => Hangs
    | Exits code => Exits code
    | Panics => Panics
    end.
Proof.
  intros [Hlim Hos] Hrun.
  unfold main_after_foo, func, limits_SetLimits, winServiceMain_call, call,
    when, emit, os_Exit.
  cbn -[btcdMain]. rewrite Hlim. cbn -[btcdMain].
  destruct Hos as [Hos | Hsvc].
  - rewrite Hos. cbn -[btcdMain]. rewrite Hrun.
    destruct o as [[e | ] | | code | ]; reflexivity.
  - rewrite Hsvc. destruct (GOOS E =? "windows"); cbn -[btcdMain];
      rewrite Hrun; destruct o as [[e | ] | | code | ]; reflexivity.
Qed.

(** What the statements of [main] after [foo] do about a Windows service:
    [winServiceMain] is called on Windows only, and when it reports a
    service the process exits with status 0 before [btcdMain]. *)
Lemma main_after_foo_service_dispatch (E : env) (w : world) :
  ((GOOS E =? "windows") = false ->
   ~ In EvWinServiceMain (events_of (func (main_after_foo E) w)))
  /\ (SetLimits_result E = None -> (GOOS E =? "windows") = true ->
      winServiceMain E = Some (true, None) ->
      func (main_after_foo E) w
      = (Exits 0, w,
         [EvGOMAXPROCS (NumCPU E); EvSetGCPercent 10; EvSetLimits true;
          EvWinServiceMain; EvExit 0])).
Proof.
  split.
  - intros Hos.
    unfold main_after_foo, func, limits_SetLimits, winServiceMain_call, call,
      when, emit, os_Exit.
    cbn -[btcdMain]. rewrite Hos.
    destruct (SetLimits_result E); cbn -[btcdMain].
    + intuition discriminate.
    + destruct (btcdMain_paths E None w); cbn.
      all: try solve [ intuition discriminate ].
      all: destruct res; cbn; intuition discriminate.
  - intros Hlim Hos Hsvc.
    unfold main_after_foo, func, limits_SetLimits, winServiceMain_call, call,
      when, emit, os_Exit.
    cbn -[btcdMain]. rewrite Hlim, Hos, Hsvc. reflexivity.
Qed.

(** C1: every run of [main] starts with the call of [foo], which decodes its
    literal without error, prints the bytes and the nil error, and calls
    [os.Exit(1)]: the process ends with status 1, the state untouched, and
    neither a call of [btcdMain] nor a configuration load, database open,
    index drop or server start is among its events. *)
Theorem main_always_exits_1_in_foo (E : env) (w : world) :
  main E w = (Exits 1, w, [EvCall "foo"; EvPrintln foo_data None; EvExit 1])
  /\ hex.DecodeString "76a914da90c671eb03bfddf1d62dd1bdf520f060cf41c088ac"
     = (foo_data, None)
  /\ outcome_of (main E w) = Exits 1
  /\ none_of is_startup_work (events_of (main E w)).
Proof.
  assert (Hrun : main E w
            = (Exits 1, w, [EvCall "foo"; EvPrintln foo_data None; EvExit 1]))
    by reflexivity.
  rewrite Hrun. repeat split.
Qed.

(** ** Index drops *)


(** C3, as amended: in a run of [btcdMain] with both drop requests
    configured that gets to the index-drop handling, the address index drop
    is the only drop performed: [btcdMain] returns its result right after
    it, the transaction index drop is not attempted, and no server is
    created.  With the Index Manager installed that run succeeds and leaves
    the transaction index as it was; a following run asked for the
    transaction-index drop alone then succeeds too, after which both indexes
    are dropped. *)
Theorem both_drops_requested_only_addr_index_dropped
  (E : env) (sc : option chan) (w : world) (c : config) o w' evs :
  reaches_drop_handling E w c ->
  DropAddrIndex c = true ->
  DropTxIndex c = true ->
  btcdMain E sc w = (o, w', evs) ->
  (exists res, filter is_index_drop evs = [EvDropAddrIndex res]
               /\ o = Returned res)
  /\ none_of is_server_event evs
  /\ (IndexManager.installed E ->
      o = Returned None
      /\ addrIndex (db w') = false
      /\ txIndex (db w') = txIndex (db w)
      /\ forall E2 sc2 c2 o2 w2 evs2,
           IndexManager.installed E2 ->
           reaches_drop_handling E2 w' c2 ->
           DropAddrIndex c2 = false ->
           DropTxIndex c2 = true ->
           btcdMain E2 sc2 w' = (o2, w2, evs2) ->
           o2 = Returned None
           /\ filter is_index_drop evs2 = [EvDropTxIndex None]
           /\ addrIndex (db w2) = false
           /\ txIndex (db w2) = false).
Proof.
  intros Hreach Ha Ht Hrun.
  by_paths Hrun; try unreach.
  all: same_config c; try congruence.
  split; [ exists res; destruct res; split; reflexivity | ].
  split; [ destruct res; reflexivity | ].
  intros [Hda _].
  match goal with
  | H : indexers_DropAddrIndex _ _ = _ |- _ =>
      rewrite Hda in H; unfold IndexManager.dropAddressIndex in H;
      inversion H; subst; clear H
  end.
  do 3 (split; [ reflexivity | ]).
  intros E2 sc2 c2 o2 w2 evs2 [_ Hdt2] Hreach2 Ha2 Ht2 Hrun2.
  by_paths Hrun2; try unreach.
  all: same_config c2; try congruence.
  match goal with
  | H : indexers_DropTxIndex _ _ = _ |- _ =>
      rewrite Hdt2 in H; unfold IndexManager.dropTransactionIndex in H;
      cbn in H; inversion H; subst; clear H
  end.
  repeat split.
Qed.


(** ** Failure and interruption during startup *)

(** C5: when [loadBlockDB] fails, [btcdMain] has called it once, returns its
    error, and neither creates nor touches a server; the statements of
    [main] that call [btcdMain] then end the process with status 1, and
    [main] as a whole ends it with a non-zero status. *)
Theorem db_load_failure_returned_not_retried
  (E : env) (sc : option chan) (w : world) (c : config) (err : error)
  o w' evs :
  loadConfig_result E = inl c ->
  interrupted E (polls w) = false ->
  loadBlockDB_result E = Some err ->
  btcdMain E sc w = (o, w', evs) ->
  o = Returned (Some err)
  /\ filter is_db_load evs = [EvLoadBlockDB false]
  /\ none_of is_server_event evs
  /\ srv w' = srv w
  /\ (reaches_btcdMain E ->
      outcome_of (func (main_after_foo E) w) = Exits 1)
  /\ (exists code, outcome_of (main E w) = Exits code /\ code <> 0%Z).
Proof.
  intros Hcfg Hi Hdb Hrun.
  assert (Hpath : forall sc0 o0 w0 evs0,
             btcdMain E sc0 w = (o0, w0, evs0) ->
             o0 = Returned (Some err)
             /\ filter is_db_load evs0 = [EvLoadBlockDB false]
             /\ none_of is_server_event evs0).
  { intros sc0 o0 w0 evs0 Hrun0. by_paths Hrun0; try unreach.
    replace err0 with err by congruence. repeat split. }
  destruct (Hpath sc o w' evs Hrun) as (Ho & Hload & Hnone).
  repeat split; try assumption.
  - exact (no_server_event_no_server_change E sc w o w' evs Hrun Hnone).
  - intros Hmain.
    destruct (btcdMain E None w) as [[o0 w0] evs0] eqn:Hrun0.
    rewrite (main_after_foo_follows_btcdMain E w o0 w0 evs0 Hmain Hrun0).
    destruct (Hpath None o0 w0 evs0 Hrun0) as (-> & _). reflexivity.
  - exists 1%Z. split; [ reflexivity | discriminate ].
Qed.

(** C9: an interrupt pending at the first poll makes [btcdMain] return nil
    before the database is loaded; one pending at the second poll, after the
    database loaded, makes it return nil before any index drop, with the
    database closed again.  In both cases no server is created or touched. *)
Theorem interrupt_at_startup_returns_nil
  (E : env) (sc : option chan) (w : world) (c : config) o w' evs :
  loadConfig_result E = inl c ->
  btcdMain E sc w = (o, w', evs) ->
  (interrupted E (polls w) = true ->
   o = Returned None
   /\ none_of is_server_event evs /\ srv w' = srv w
   /\ none_of is_db_load evs /\ db w' = db w)
  /\ (interrupted E (polls w) = false ->
      loadBlockDB_result E = None ->
      interrupted E (S (polls w)) = true ->
      o = Returned None
      /\ none_of is_server_event evs /\ srv w' = srv w
      /\ none_of is_index_drop evs
      /\ filter is_db_handle_event evs = [EvLoadBlockDB true; EvDbClose]
      /\ isOpen (db w') = false).
Proof.
  intros Hcfg Hrun. split.
  - intros Hi. by_paths Hrun; try unreach. repeat split.
  - intros Hi Hdb Hi2. by_paths Hrun; try unreach. repeat split.
Qed.

(** ** Cleanup *)

(** C6: every call of [btcdMain] that returns after [loadBlockDB]
    succeeded has closed the database before returning: the handle was
    opened once and closed once, in that order, and the database is closed
    in the state [btcdMain] leaves. *)
Theorem database_closed_on_every_return
  (E : env) (sc : option chan) (w : world) r w' evs :
  btcdMain E sc w = (Returned r, w', evs) ->
  In (EvLoadBlockDB true) evs ->
  filter is_db_handle_event evs = [EvLoadBlockDB true; EvDbClose]
  /\ isOpen (db w') = false.
Proof.
  intros Hrun Hin. exact (db_closed_on_return E sc w r w' evs Hrun Hin).
Qed.

(** C7: every call of [btcdMain] that returns ends with the cleanup of
    exactly the resources it acquired, last acquired first, and releases
    nothing before that; so once the server has been created, it is stopped
    and its shutdown awaited, then the database is closed, then the log is
    flushed. *)
Theorem cleanup_releases_last_acquired_first
  (E : env) (sc : option chan) (w : world) r w' evs :
  btcdMain E sc w = (Returned r, w', evs) ->
  released evs = rev (acquired evs)
  /\ (exists body,
        evs = body ++ flat_map release_events (rev (acquired evs))
        /\ released body = [])
  /\ (In (EvNewServer true) evs ->
      filter is_cleanup_step evs
      = [EvServerStop; EvServerWaitForShutdown; EvDbClose; EvLogFlush]).
Proof.
  intros Hrun. by_paths Hrun.
  all: try destruct r.
  all: try destruct sc.
  all: split; [ reflexivity | split ].
  all: try (intros Hin; first [ reflexivity
                              | cbn in Hin; intuition discriminate ]).
  all: match goal with
       | |- exists body, ?l = body ++ ?suffix /\ _ =>
           exists (firstn (List.length l - List.length suffix) l);
           split; reflexivity
       end.
Qed.

(** ** The server handed to the caller *)

Lemma sends_follow_start_sound (evs : list event) :
  forall seen,
    sends_follow_start seen evs = true ->
    forall l1 s l2,
      evs = l1 ++ EvChanSend s :: l2 ->
      (seen = true \/ In EvServerStart l1) /\ started s = true.
Proof.
  induction evs as [ | e evs IH]; intros seen Hchk l1 s l2 Heq.
  - destruct l1; discriminate.
  - destruct l1 as [ | e1 l1]; cbn in Heq; inversion Heq; subst; clear Heq.
    + cbn in Hchk.
      apply andb_true_iff in Hchk as [Hchk _].
      apply andb_true_iff in Hchk as [Hseen Hstarted].
      split; [ left; exact Hseen | exact Hstarted ].
    + assert (Htail : exists seen',
                 sends_follow_start seen' (l1 ++ EvChanSend s :: l2) = true
                 /\ (seen' = true -> seen = true \/ e1 = EvServerStart)).
      { destruct e1; cbn in Hchk;
          try (exists seen; split; [ exact Hchk | now left ]).
        - exists true. split; [ exact Hchk | now right ].
        - apply andb_true_iff in Hchk as [_ Hchk].
          exists seen. split; [ exact Hchk | now left ]. }
      destruct Htail as (seen' & Hchk' & Hseen').
      destruct (IH seen' Hchk' l1 s l2 eq_refl) as [[Hs | Hin] Hstarted].
      * split; [ | exact Hstarted ].
        destruct (Hseen' Hs) as [-> | ->]; [ now left | right; now left ].
      * split; [ right; now right | exact Hstarted ].
Qed.

Lemma btcdMain_sends_follow_start (E : env) (sc : option chan) (w : world) :
  sends_follow_start false (events_of (btcdMain E sc w)) = true.
Proof.
  destruct (btcdMain_paths E sc w); cbn; try reflexivity.
  all: try (destruct res; reflexivity).
  all: destruct sc; reflexivity.
Qed.

(** C10: in a call of [btcdMain] with a channel, whatever precedes the send
    of the server on the channel includes [server.Start()], and the server
    the receiver gets is started. *)
Theorem server_sent_only_after_start
  (E : env) (ch : chan) (w : world) o w' evs :
  btcdMain E (Some ch) w = (o, w', evs) ->
  forall l1 s l2,
    evs = l1 ++ EvChanSend s :: l2 ->
    In EvServerStart l1 /\ started s = true.
Proof.
  intros Hrun l1 s l2 Heq.
  pose proof (btcdMain_sends_follow_start E (Some ch) w) as Hchk.
  rewrite Hrun in Hchk. cbn [events_of snd] in Hchk.
  destruct (sends_follow_start_sound evs false Hchk l1 s l2 Heq)
    as [[Hseen | Hin] Hstarted]; [ discriminate | ].
  split; assumption.
Qed.

(** ** The claims at sample runs *)



(** C3, as stated, fails: with both drops requested, the Index Manager
    installed and both indexes present, [btcdMain] gets to the index-drop
    handling, drops the address index and returns nil; the transaction index
    drop is not performed and the transaction index is still there. *)
Lemma both_drops_requested_tx_index_survives :
  DropAddrIndex drop_both_cfg = true
  /\ DropTxIndex drop_both_cfg = true
  /\ reaches_drop_handling (plain_env drop_both_cfg) fresh_world drop_both_cfg
  /\ drop_both_run
     = (Returned None,
        {| cfg := Some drop_both_cfg;
           db := {| isOpen := false; addrIndex := false; txIndex := true |};
           srv := None;
           polls := 2 |},
        [EvLoadConfig true; EvInterruptListener;
         EvLog btcdLog LvlInfo "Version %s"; EvLoadBlockDB true;
         EvDropAddrIndex None;
         EvLog btcdLog LvlInfo "Gracefully shutting down the database...";
         EvDbClose; EvLog btcdLog LvlInfo "Shutdown complete"; EvLogFlush])
  /\ filter is_index_drop (events_of drop_both_run) = [EvDropAddrIndex None]
  /\ ~ (exists res, In (EvDropTxIndex res) (events_of drop_both_run))
  /\ ~ (addrIndex (db (world_of drop_both_run)) = false
        /\ txIndex (db (world_of drop_both_run)) = false).
Proof.
  assert (Hrun : drop_both_run
            = (Returned None,
               {| cfg := Some drop_both_cfg;
                  db := {| isOpen := false; addrIndex := false;
                           txIndex := true |};
                  srv := None;
                  polls := 2 |},
               [EvLoadConfig true; EvInterruptListener;
                EvLog btcdLog LvlInfo "Version %s"; EvLoadBlockDB true;
                EvDropAddrIndex None;
                EvLog btcdLog LvlInfo
                  "Gracefully shutting down the database...";
                EvDbClose; EvLog btcdLog LvlInfo "Shutdown complete";
                EvLogFlush]))
    by (vm_compute; reflexivity).
  rewrite Hrun. cbn [outcome_of world_of events_of fst snd].
  split; [ reflexivity | ].
  split; [ reflexivity | ].
  split; [ repeat split | ].
  split; [ reflexivity | ].
  split; [ reflexivity | ].
  split.
  - intros [res Hin]. cbn in Hin. intuition discriminate.
  - intros [_ Htx]. discriminate Htx.
Qed.

Lemma both_drops_requested_witness :
  outcome_of drop_both_run = Returned None
  /\ addrIndex (db (world_of drop_both_run)) = false
  /\ txIndex (db (world_of drop_both_run)) = txIndex (db fresh_world)
  /\ outcome_of (btcdMain (plain_env drop_tx_cfg) None (world_of drop_both_run))
     = Returned None
  /\ txIndex (db (world_of (btcdMain (plain_env drop_tx_cfg) None
                              (world_of drop_both_run)))) = false.
Proof.
  destruct (both_drops_requested_only_addr_index_dropped
              (plain_env drop_both_cfg) None fresh_world drop_both_cfg
              (outcome_of drop_both_run) (world_of drop_both_run)
              (events_of drop_both_run))
    as (_ & _ & Hinstalled); [ by_eval .. | ].
  destruct Hinstalled as (Ho & Ha & Ht & Hnext); [ by_eval | ].
  destruct (Hnext (plain_env drop_tx_cfg) None drop_tx_cfg
              (outcome_of (btcdMain (plain_env drop_tx_cfg) None
                             (world_of drop_both_run)))
              (world_of (btcdMain (plain_env drop_tx_cfg) None
                           (world_of drop_both_run)))
              (events_of (btcdMain (plain_env drop_tx_cfg) None
                            (world_of drop_both_run))))
    as (Ho2 & _ & _ & Ht2); [ by_eval .. | ].
  exact (conj Ho (conj Ha (conj Ht (conj Ho2 Ht2)))).
Defined.



Lemma db_load_failure_witness :
  outcome_of db_failure_run = Returned (Some StorageFailure)
  /\ filter is_db_load (events_of db_failure_run) = [EvLoadBlockDB false]
  /\ none_of is_server_event (events_of db_failure_run)
  /\ srv (world_of db_failure_run) = srv fresh_world
  /\ outcome_of (func (main_after_foo db_failure_env) fresh_world) = Exits 1
  /\ (exists code, outcome_of (main db_failure_env fresh_world) = Exits code
                   /\ code <> 0%Z).
Proof.
  destruct (db_load_failure_returned_not_retried
              db_failure_env None fresh_world serve_cfg StorageFailure
              (outcome_of db_failure_run) (world_of db_failure_run)
              (events_of db_failure_run))
    as (Ho & Hload & Hnone & Hsrv & Hmain & Hexit); [ by_eval .. | ].
  refine (conj Ho (conj Hload (conj Hnone (conj Hsrv
            (conj (Hmain _) Hexit))))).
  split; [ reflexivity | left; reflexivity ].
Defined.

Lemma interrupt_at_startup_witness :
  (outcome_of (interrupted_run 0) = Returned None
   /\ none_of is_server_event (events_of (interrupted_run 0))
   /\ srv (world_of (interrupted_run 0)) = srv fresh_world
   /\ none_of is_db_load (events_of (interrupted_run 0))
   /\ db (world_of (interrupted_run 0)) = db fresh_world)
  /\ (outcome_of (interrupted_run 1) = Returned None
      /\ none_of is_server_event (events_of (interrupted_run 1))
      /\ srv (world_of (interrupted_run 1)) = srv fresh_world
      /\ none_of is_index_drop (events_of (interrupted_run 1))
      /\ filter is_db_handle_event (events_of (interrupted_run 1))
         = [EvLoadBlockDB true; EvDbClose]
      /\ isOpen (db (world_of (interrupted_run 1))) = false).
Proof.
  split.
  - apply (interrupt_at_startup_returns_nil
             (interrupted_env 0) None fresh_world serve_cfg
             (outcome_of (interrupted_run 0)) (world_of (interrupted_run 0))
             (events_of (interrupted_run 0))); by_eval.
  - apply (interrupt_at_startup_returns_nil
             (interrupted_env 1) None fresh_world serve_cfg
             (outcome_of (interrupted_run 1)) (world_of (interrupted_run 1))
             (events_of (interrupted_run 1))); by_eval.
Defined.

Lemma database_closed_witness :
  filter is_db_handle_event (events_of serve_run)
  = [EvLoadBlockDB true; EvDbClose]
  /\ isOpen (db (world_of serve_run)) = false.
Proof.
  apply (database_closed_on_every_return
           (plain_env serve_cfg) (Some tt) fresh_world None
           (world_of serve_run) (events_of serve_run)).
  - by_eval.
  - vm_compute. do 3 right. left. reflexivity.
Defined.

Lemma cleanup_order_witness :
  released (events_of serve_run) = rev (acquired (events_of serve_run))
  /\ filter is_cleanup_step (events_of serve_run)
     = [EvServerStop; EvServerWaitForShutdown; EvDbClose; EvLogFlush].
Proof.
  destruct (cleanup_releases_last_acquired_first
              (plain_env serve_cfg) (Some tt) fresh_world None
              (world_of serve_run) (events_of serve_run))
    as (Hrel & _ & Hsteps); [ by_eval .. | ].
  refine (conj Hrel (Hsteps _)).
  vm_compute. do 4 right. left. reflexivity.
Defined.

Lemma server_sent_witness :
  In EvServerStart
    [EvLoadConfig true; EvInterruptListener;
     EvLog btcdLog LvlInfo "Version %s"; EvLoadBlockDB true;
     EvNewServer true; EvServerStart]
  /\ started running = true.
Proof.
  apply (server_sent_only_after_start
           (plain_env serve_cfg) tt fresh_world
           (outcome_of serve_run) (world_of serve_run) (events_of serve_run))
    with (l2 := [EvInterruptReceived] ++ server_cleanup ++ db_cleanup
                  ++ log_cleanup); by_eval.
Defined.

(** C8, where the code departs from it: on Windows, with [winServiceMain]
    reporting a service, [main] ends in [foo] with status 1 and never calls
    [winServiceMain]; the statements after [foo], had they run, would have
    called it and ended the process with status 0. *)
Theorem main_as_windows_service_exits_1_in_foo :
  GOOS windows_service_env = "windows"
  /\ winServiceMain windows_service_env = Some (true, None)
  /\ main windows_service_env fresh_world
     = (Exits 1, fresh_world,
        [EvCall "foo"; EvPrintln foo_data None; EvExit 1])
  /\ ~ In EvWinServiceMain (events_of (main windows_service_env fresh_world))
  /\ func (main_after_foo windows_service_env) fresh_world
     = (Exits 0, fresh_world,
        [EvGOMAXPROCS 4; EvSetGCPercent 10; EvSetLimits true;
         EvWinServiceMain; EvExit 0]).
Proof.
  split; [ reflexivity | ].
  split; [ reflexivity | ].
  split; [ vm_compute; reflexivity | ].
  split; [ | vm_compute; reflexivity ].
  vm_compute. intuition discriminate.
Qed.

(** ** More on the paths of [btcdMain] *)


(** X2: when [loadConfig] fails, [btcdMain] returns its error at once: the
    state, [cfg] included, is as it was, and nothing else happens, no log
    flush and no "Shutdown complete" either, since nothing is deferred yet. *)
Theorem config_failure_returns_at_once
  (E : env) (sc : option chan) (w : world) (err : error) :
  loadConfig_result E = inr err ->
  btcdMain E sc w = (Returned (Some err), w, [EvLoadConfig false]).
Proof.
  intros Hcfg.
  destruct (btcdMain E sc w) as [[o w'] evs] eqn:Hrun.
  by_paths Hrun; unreach.
Qed.

Lemma config_failure_witness :
  btcdMain config_failure_env None fresh_world
  = (Returned (Some (OtherError "bad flag")), fresh_world,
     [EvLoadConfig false]).
Proof.
  apply (config_failure_returns_at_once config_failure_env None fresh_world).
  reflexivity.
Defined.

(** X3: when [newServer] fails, [btcdMain] logs "Unable to start server",
    returns the error, and never starts, sends or stops a server; the
    database is closed and the log flushed on the way out. *)
Theorem server_creation_failure_cleans_up
  (E : env) (sc : option chan) (w : world) (c : config) (err : error)
  o w' evs :
  reaches_drop_handling E w c ->
  DropAddrIndex c = false ->
  DropTxIndex c = false ->
  newServer_result E = Some err ->
  btcdMain E sc w = (o, w', evs) ->
  o = Returned (Some err)
  /\ srv w' = srv w
  /\ filter is_server_event evs = [EvNewServer false]
  /\ In (EvLog btcdLog LvlError "Unable to start server on %v: %v") evs
  /\ filter is_cleanup_step evs = [EvDbClose; EvLogFlush]
  /\ isOpen (db w') = false.
Proof.
  intros Hreach Ha Ht Hns Hrun.
  by_paths Hrun; try unreach.
  all: same_config c; try congruence.
  replace err0 with err by congruence.
  repeat split. cbn. tauto.
Qed.

(** X4: a call of [btcdMain] that started the server returns only after
    the shutdown signal, with nil, and has stopped the server by then: the
    server events are creation, start, the send if there is a channel, stop
    and the wait for shutdown, in that order, start before the signal and
    stop after it. *)
Theorem started_server_is_stopped_before_return
  (E : env) (sc : option chan) (w : world) r w' evs :
  btcdMain E sc w = (Returned r, w', evs) ->
  In EvServerStart evs ->
  r = None
  /\ shutdown_signalled E = true
  /\ srv w' = Some {| started := true; stopped := true |}
  /\ filter is_server_event evs
     = [EvNewServer true; EvServerStart] ++ send_events sc
       ++ [EvServerStop; EvServerWaitForShutdown]
  /\ exists before after,
       evs = before ++ EvInterruptReceived :: after
       /\ In EvServerStart before /\ In EvServerStop after.
Proof.
  intros Hrun Hin. by_paths Hrun.
  all: try (cbn in Hin; intuition discriminate).
  all: try (destruct r; cbn in Hin; intuition discriminate).
  destruct sc as [ch | ].
  - repeat split; auto.
    exists (startup_events
              ++ [EvLoadBlockDB true; EvNewServer true; EvServerStart;
                  EvChanSend running]),
      (server_cleanup ++ db_cleanup ++ log_cleanup).
    repeat split; cbn; tauto.
  - repeat split; auto.
    exists (startup_events
              ++ [EvLoadBlockDB true; EvNewServer true; EvServerStart]),
      (server_cleanup ++ db_cleanup ++ log_cleanup).
    repeat split; cbn; tauto.
Qed.


Lemma server_creation_failure_witness :
  outcome_of (btcdMain server_failure_env None fresh_world)
  = Returned (Some (OtherError "listen"))
  /\ srv (world_of (btcdMain server_failure_env None fresh_world))
     = srv fresh_world
  /\ filter is_server_event
       (events_of (btcdMain server_failure_env None fresh_world))
     = [EvNewServer false]
  /\ In (EvLog btcdLog LvlError "Unable to start server on %v: %v")
       (events_of (btcdMain server_failure_env None fresh_world))
  /\ filter is_cleanup_step
       (events_of (btcdMain server_failure_env None fresh_world))
     = [EvDbClose; EvLogFlush]
  /\ isOpen (db (world_of (btcdMain server_failure_env None fresh_world)))
     = false.
Proof.
  apply (server_creation_failure_cleans_up
           server_failure_env None fresh_world serve_cfg
           (OtherError "listen")); by_eval.
Defined.

Lemma started_server_witness :
  srv (world_of serve_run) = Some {| started := true; stopped := true |}
  /\ filter is_server_event (events_of serve_run)
     = [EvNewServer true; EvServerStart; EvChanSend running;
        EvServerStop; EvServerWaitForShutdown].
Proof.
  destruct (started_server_is_stopped_before_return
              (plain_env serve_cfg) (Some tt) fresh_world None
              (world_of serve_run) (events_of serve_run))
    as (_ & _ & Hsrv & Hevs & _).
  - by_eval.
  - vm_compute. do 5 right. left. reflexivity.
  - exact (conj Hsrv Hevs).
Defined.


(** X11: once [loadConfig] has succeeded, the package variable [cfg] holds
    the loaded configuration when [btcdMain] ends, whichever way it ends. *)
Theorem cfg_holds_loaded_config
  (E : env) (sc : option chan) (w : world) (c : config) :
  loadConfig_result E = inl c ->
  cfg (world_of (btcdMain E sc w)) = Some c.
Proof.
  intros Hcfg.
  destruct (btcdMain_paths E sc w); cbn; try unreach.
  all: try (f_equal; congruence).
Qed.

Lemma cfg_holds_loaded_config_witness :
  cfg (world_of (interrupted_run 0)) = Some serve_cfg.
Proof.
  apply (cfg_holds_loaded_config (interrupted_env 0) None fresh_world
           serve_cfg).
  reflexivity.
Defined.

(** ** The statements of [main] after [foo] *)

(** Once past the limits and the service check, the statements of [main]
    after [foo] call [btcdMain], pass on its events, and end as it does,
    except that an error returned becomes [os.Exit(1)]. *)
Lemma main_after_foo_run (E : env) (w : world) o w' evs :
  reaches_btcdMain E ->
  btcdMain E None w = (o, w', evs) ->
  func (main_after_foo E) w
  = (match o with
     | Returned None => Returned tt
     | Returned (Some _) => Exits 1
     | Hangs => Hangs
     | Exits code => Exits code
     | Panics => Panics
     end,
     w',
     gate_events E ++ EvCall "btcdMain" :: evs
       ++ match o with
          | Returned (Some _) => [EvExit 1]
          | _ => []
          end).
Proof.
  intros [Hlim Hos] Hrun.
  unfold gate_events, main_after_foo, func, unwind, limits_SetLimits,
    winServiceMain_call, call, when, emit, os_Exit.
  cbn -[btcdMain]. rewrite Hlim. cbn -[btcdMain].
  destruct Hos as [Hos | Hsvc].
  - rewrite Hos. cbn -[btcdMain]. rewrite Hrun.
    destruct o as [[e | ] | | code | ]; cbn;
      rewrite ?app_nil_r, <- ?app_assoc; reflexivity.
  - rewrite Hsvc. destruct (GOOS E =? "windows"); cbn -[btcdMain];
      rewrite Hrun; destruct o as [[e | ] | | code | ]; cbn;
      rewrite ?app_nil_r, <- ?app_assoc; reflexivity.
Qed.

(** X6: when the statements of [main] after [foo] get to [btcdMain] and
    it returns an error, they end the process with status 1 only after
    [btcdMain] has run its deferred cleanup: the events of [btcdMain], with
    everything it acquired released in reverse order and the log flush last,
    all precede the exit. *)
Theorem error_exit_follows_cleanup
  (E : env) (w : world) (e : error) w' evs :
  reaches_btcdMain E ->
  btcdMain E None w = (Returned (Some e), w', evs) ->
  func (main_after_foo E) w
  = (Exits 1, w', gate_events E ++ EvCall "btcdMain" :: evs ++ [EvExit 1])
  /\ acquired (gate_events E) = []
  /\ released evs = rev (acquired evs)
  /\ (In (EvLoadConfig true) evs ->
      exists body, evs = body ++ [EvLogFlush]).
Proof.
  intros Hmain Hrun.
  split; [ exact (main_after_foo_run E w _ w' evs Hmain Hrun) | ].
  split; [ unfold gate_events; destruct (GOOS E =? "windows"); reflexivity | ].
  by_paths Hrun.
  all: split; [ reflexivity | ].
  all: intros Hin; try (cbn in Hin; intuition discriminate).
  all: match goal with
       | |- exists body, ?l = body ++ _ => exists (removelast l); reflexivity
       end.
Qed.

Lemma error_exit_witness :
  func (main_after_foo db_failure_env) fresh_world
  = (Exits 1, world_of db_failure_run,
     gate_events db_failure_env ++ EvCall "btcdMain"
       :: events_of db_failure_run ++ [EvExit 1])
  /\ acquired (gate_events db_failure_env) = []
  /\ released (events_of db_failure_run)
     = rev (acquired (events_of db_failure_run))
  /\ (In (EvLoadConfig true) (events_of db_failure_run) ->
      exists body, events_of db_failure_run = body ++ [EvLogFlush]).
Proof.
  apply (error_exit_follows_cleanup db_failure_env fresh_world StorageFailure
           (world_of db_failure_run) (events_of db_failure_run)).
  - split; [ reflexivity | left; reflexivity ].
  - by_eval.
Defined.

(** X7: once the statements of [main] after [foo] get to [btcdMain], they
    return normally exactly when [btcdMain] returns nil, end the process with
    status 1 exactly when it returns an error, wait for ever exactly when it
    does, and neither exit with status 0 nor panic. *)
Theorem main_after_foo_exit_status (E : env) (w : world) :
  reaches_btcdMain E ->
  (outcome_of (func (main_after_foo E) w) = Returned tt
   <-> outcome_of (btcdMain E None w) = Returned None)
  /\ (outcome_of (func (main_after_foo E) w) = Exits 1
      <-> exists e, outcome_of (btcdMain E None w) = Returned (Some e))
  /\ (outcome_of (func (main_after_foo E) w) = Hangs
      <-> outcome_of (btcdMain E None w) = Hangs)
  /\ outcome_of (func (main_after_foo E) w) <> Exits 0
  /\ outcome_of (func (main_after_foo E) w) <> Panics.
Proof.
  intros Hmain.
  destruct (btcdMain E None w) as [[o w'] evs] eqn:Hrun.
  rewrite (main_after_foo_run E w o w' evs Hmain Hrun).
  pose proof (proj1 (btcdMain_returns_or_hangs E None w)) as Hends.
  rewrite Hrun in Hends. cbn in *.
  destruct Hends as [[r ->] | ->].
  - destruct r as [e | ]; repeat split; intros; try discriminate; eauto.
    all: match goal with
         | H : exists _, _ |- _ => destruct H; discriminate
         end.
  - repeat split; intros; try discriminate.
    match goal with
    | H : exists _, _ |- _ => destruct H; discriminate
    end.
Qed.

Lemma main_after_foo_exit_status_witness :
  outcome_of (func (main_after_foo (plain_env serve_cfg)) fresh_world)
  = Returned tt.
Proof.
  apply (proj1 (main_after_foo_exit_status (plain_env serve_cfg) fresh_world
                  (conj eq_refl (or_introl eq_refl)))).
  vm_compute. reflexivity.
Defined.

(** X8: in the statements of [main] after [foo], a failure of
    [limits.SetLimits], or on Windows an error from [winServiceMain] whatever
    its service flag, ends the process with status 1 after printing, before
    [btcdMain] is called and with the state untouched. *)
Theorem startup_failure_exits_before_btcdMain
  (E : env) (w : world) :
  (forall err, SetLimits_result E = Some err ->
     func (main_after_foo E) w
     = (Exits 1, w,
        [EvGOMAXPROCS (NumCPU E); EvSetGCPercent 10; EvSetLimits false;
         EvFprintfStderr "failed to set limits: %v\n"; EvExit 1]))
  /\ (forall isService err,
        SetLimits_result E = None ->
        (GOOS E =? "windows") = true ->
        winServiceMain E = Some (isService, Some err) ->
        func (main_after_foo E) w
        = (Exits 1, w,
           [EvGOMAXPROCS (NumCPU E); EvSetGCPercent 10; EvSetLimits true;
            EvWinServiceMain; EvPrintlnErr err; EvExit 1])).
Proof.
  split.
  - intros err Hlim.
    unfold main_after_foo, func, limits_SetLimits, emit, os_Exit.
    cbn -[btcdMain]. rewrite Hlim. reflexivity.
  - intros isService err Hlim Hos Hsvc.
    unfold main_after_foo, func, limits_SetLimits, winServiceMain_call, when,
      emit, os_Exit.
    cbn -[btcdMain]. rewrite Hlim. cbn -[btcdMain].
    rewrite Hos. cbn -[btcdMain]. rewrite Hsvc. reflexivity.
Qed.

(** X9: the statements of [main] after [foo] call [winServiceMain] on
    Windows only; when it reports a service they end the process with status
    0 before [btcdMain], and when it reports none they go on to call
    [btcdMain]. *)
Theorem service_dispatch_after_foo (E : env) (w : world) :
  ((GOOS E =? "windows") = false ->
   ~ In EvWinServiceMain (events_of (func (main_after_foo E) w)))
  /\ (SetLimits_result E = None ->
      (GOOS E =? "windows") = true ->
      (winServiceMain E = Some (true, None) ->
       func (main_after_foo E) w
       = (Exits 0, w,
          [EvGOMAXPROCS (NumCPU E); EvSetGCPercent 10; EvSetLimits true;
           EvWinServiceMain; EvExit 0]))
      /\ (winServiceMain E = Some (false, None) ->
          exists evs,
            events_of (func (main_after_foo E) w)
            = [EvGOMAXPROCS (NumCPU E); EvSetGCPercent 10; EvSetLimits true;
               EvWinServiceMain; EvCall "btcdMain"] ++ evs)).
Proof.
  split; [ exact (proj1 (main_after_foo_service_dispatch E w)) | ].
  intros Hlim Hos. split.
  - exact (proj2 (main_after_foo_service_dispatch E w) Hlim Hos).
  - intros Hsvc.
    destruct (btcdMain E None w) as [[o w'] evs] eqn:Hrun.
    rewrite (main_after_foo_run E w o w' evs
               (conj Hlim (or_intror Hsvc)) Hrun).
    unfold gate_events. rewrite Hos. cbn. eauto.
Qed.

Lemma startup_failure_witness :
  func (main_after_foo limits_failure_env) fresh_world
  = (Exits 1, fresh_world,
     [EvGOMAXPROCS 4; EvSetGCPercent 10; EvSetLimits false;
      EvFprintfStderr "failed to set limits: %v\n"; EvExit 1]).
Proof.
  apply (proj1 (startup_failure_exits_before_btcdMain limits_failure_env
                  fresh_world) (OtherError "rlimit")).
  reflexivity.
Defined.

Lemma service_dispatch_witness :
  func (main_after_foo windows_service_env) fresh_world
  = (Exits 0, fresh_world,
     [EvGOMAXPROCS 4; EvSetGCPercent 10; EvSetLimits true;
      EvWinServiceMain; EvExit 0]).
Proof.
  apply (proj2 (service_dispatch_after_foo windows_service_env fresh_world));
    reflexivity.
Defined.

(** ** encoding/hex *)

Lemma length_list_ascii_of_string (s : string) :
  List.length (list_ascii_of_string s) = String.length s.
Proof.
  induction s as [ | c s IH]; cbn; [ reflexivity | now rewrite IH ].
Qed.

(** Lists are decoded two characters at a time. *)
Lemma pair_induction {A : Type} (P : list A -> Prop) :
  P [] ->
  (forall a, P [a]) ->
  (forall a b l, P l -> P (a :: b :: l)) ->
  forall l, P l.
Proof.
  intros Hnil Hone Hstep.
  assert (Hboth : forall l, P l /\ forall a, P (a :: l)).
  { induction l as [ | b l [IHl IHcons]].
    - split; [ exact Hnil | exact Hone ].
    - split; [ apply IHcons | intros a; apply Hstep, IHl ]. }
  intros l. apply Hboth.
Qed.

Lemma hex_Decode_succeeds_iff (src : list ascii) :
  snd (hex.Decode src) = None
  <-> Nat.even (List.length src) = true
      /\ forallb is_hex_digit src = true.
Proof.
  induction src as [ | p | p q rest IH] using pair_induction.
  - cbn. tauto.
  - cbn. unfold is_hex_digit.
    destruct (hex.fromHexChar p); cbn; split;
      try discriminate; intros [? ?]; discriminate.
  - cbn [hex.Decode List.length forallb Nat.even]. unfold is_hex_digit at 1 2.
    destruct (hex.fromHexChar p) as [a | ]; cbn [snd andb].
    2:{ split; [ discriminate | intros [_ ?]; discriminate ]. }
    destruct (hex.fromHexChar q) as [b | ]; cbn [snd andb].
    2:{ split; [ discriminate | intros [_ ?]; discriminate ]. }
    destruct (hex.Decode rest) as [out err]. cbn [snd] in *. exact IH.
Qed.

Lemma hex_Decode_length (src : list ascii) :
  2 * List.length (fst (hex.Decode src)) <= List.length src
  /\ (snd (hex.Decode src) = None ->
      2 * List.length (fst (hex.Decode src)) = List.length src).
Proof.
  induction src as [ | p | p q rest IH] using pair_induction.
  - cbn. split; [ lia | reflexivity ].
  - cbn. destruct (hex.fromHexChar p); cbn; split;
      try lia; discriminate.
  - cbn [hex.Decode].
    destruct (hex.fromHexChar p) as [a | ]; cbn [fst snd List.length];
      [ | split; [ lia | discriminate ] ].
    destruct (hex.fromHexChar q) as [b | ]; cbn [fst snd List.length];
      [ | split; [ lia | discriminate ] ].
    destruct (hex.Decode rest) as [out err]. cbn [fst snd List.length] in *.
    destruct IH as [IHle IHeq]. split; [ lia | ].
    intros Herr. specialize (IHeq Herr). lia.
Qed.

(** X10: [hex.DecodeString] returns no error exactly on strings of even
    length made of hexadecimal digits only; it never returns more than one
    byte per two characters, and exactly that many when there is no error. *)
Theorem DecodeString_succeeds_iff (s : string) :
  (snd (hex.DecodeString s) = None
   <-> Nat.even (String.length s) = true
       /\ forallb is_hex_digit (list_ascii_of_string s) = true)
  /\ 2 * List.length (fst (hex.DecodeString s)) <= String.length s
  /\ (snd (hex.DecodeString s) = None ->
      2 * List.length (fst (hex.DecodeString s)) = String.length s).
Proof.
  unfold hex.DecodeString.
  rewrite <- (length_list_ascii_of_string s).
  split; [ apply hex_Decode_succeeds_iff | apply hex_Decode_length ].
Qed.

Lemma DecodeString_witness :
  (Nat.even
     (String.length "76a914da90c671eb03bfddf1d62dd1bdf520f060cf41c088ac")
   = true
   /\ forallb is_hex_digit
        (list_ascii_of_string
           "76a914da90c671eb03bfddf1d62dd1bdf520f060cf41c088ac") = true)
  /\ 2 * List.length foo_data = 50.
Proof.
  destruct (DecodeString_succeeds_iff
              "76a914da90c671eb03bfddf1d62dd1bdf520f060cf41c088ac")
    as (Hiff & _ & Hlen).
  split.
  - apply (proj1 Hiff). reflexivity.
  - exact (Hlen eq_refl).
Defined.
